(** * Node-based edges of the extractor (include/extractor/node_based_edge.hpp)

    A shallow embedding of the edge records the extractor sorts and merges:
    the classification flags, the annotation record, the edge record with its
    comparator, and the OSM-tagged edge record derived from it. *)

From Stdlib Require Import ZArith Bool List Lia Permutation Sorted.
Import ListNotations.
Local Open Scope Z_scope.

(** ** Integer types *)

(** Conversion of an integer to [std::uint32_t]: reduction modulo 2^32. *)
Definition to_uint32 (z : Z) : Z := z mod 2 ^ 32.

(** [std::numeric_limits<std::uint32_t>::max()]. *)
Definition uint32_max : Z := 2 ^ 32 - 1.

(** [using AnnotationID = std::uint32_t;] *)
Definition AnnotationID : Type := Z.

(** Modelled from the spec: util/typedefs.hpp is not among the sources.  The
    identifiers and costs it declares are integers (the field comments of the
    structs give their widths); each is held as the mathematical value of the
    machine integer.  Every comparison in this file is between two values of
    one and the same type, so no conversion takes place. *)
Definition NodeID : Type := Z.
Definition OSMNodeID : Type := Z.
Definition EdgeWeight : Type := Z.
Definition EdgeDuration : Type := Z.
Definition NameID : Type := Z.
Definition LaneDescriptionID : Type := Z.

(** Modelled from the spec: extractor/travel_mode.hpp and
    extractor/class_data.hpp are not among the sources; a travel mode is a
    small enumerated value stored in 4 bits, a class set a bitset of 8 bits. *)
Definition TravelMode : Type := Z.
Definition ClassData : Type := Z.

Section NodeBasedEdges.

(** [guidance::RoadClassification] (extractor/guidance/road_classification.hpp)
    and [GeometryID] (util/typedefs.hpp) are declared outside the sources:
    they are parameters, the first with its [operator==] and the value its
    default constructor yields. *)
Context {RoadClassification GeometryID : Type}.
Variable RoadClassification_eqb : RoadClassification -> RoadClassification -> bool.
Variable RoadClassification_default : RoadClassification.

(** [SPECIAL_NODEID] and [MIN_OSM_NODEID] of util/typedefs.hpp. *)
Variable SPECIAL_NODEID : NodeID.
Variable MIN_OSM_NODEID : OSMNodeID.

(** ** Classification flags *)

(** The seven one-bit fields hold 0 or 1: they are booleans. *)
Record NodeBasedEdgeClassification : Type := mkClassification {
  forward : bool;
  backward : bool;
  is_split : bool;
  roundabout : bool;
  circular : bool;
  startpoint : bool;
  restricted : bool;
  road_classification : RoadClassification
}.

(** [NodeBasedEdgeClassification::NodeBasedEdgeClassification()]: the seven
    bits are cleared, [road_classification] is left to its own default
    constructor. *)
Definition NodeBasedEdgeClassification_default : NodeBasedEdgeClassification :=
  mkClassification false false false false false false false
                   RoadClassification_default.

(** [NodeBasedEdgeClassification::CanCombineWith].  In
    [... && (is_split) == (other.is_split) && ...] the operator [==] binds
    tighter than [&&]: the conjunct compares the two bits. *)
Definition CanCombineWith (self other : NodeBasedEdgeClassification) : bool :=
  RoadClassification_eqb (road_classification self) (road_classification other)
  && Bool.eqb (forward self) (forward other)
  && Bool.eqb (backward self) (backward other)
  && Bool.eqb (is_split self) (is_split other)
  && Bool.eqb (roundabout self) (roundabout other)
  && Bool.eqb (circular self) (circular other)
  && Bool.eqb (startpoint self) (startpoint other)
  && Bool.eqb (restricted self) (restricted other).

(** ** Annotation record *)

Record NodeBasedEdgeAnnotation : Type := mkAnnotation {
  name_id : NameID;
  travel_mode : TravelMode;
  classes : ClassData;
  lane_description_id : LaneDescriptionID
}.

(** [NodeBasedEdgeAnnotation::CanCombineWith]: equality of the tuples
    [std::tie(name_id, classes)], then of the travel modes. *)
Definition Annotation_CanCombineWith (self other : NodeBasedEdgeAnnotation) : bool :=
  ((name_id self =? name_id other) && (classes self =? classes other))
  && (travel_mode self =? travel_mode other).

(** ** Edge record *)

Record NodeBasedEdge : Type := mkNodeBasedEdge {
  source : NodeID;
  target : NodeID;
  weight : EdgeWeight;
  duration : EdgeDuration;
  geometry_id : GeometryID;
  annotation_data : AnnotationID;
  flags : NodeBasedEdgeClassification
}.

(** [NodeBasedEdge::NodeBasedEdge()].  [geometry_id] is absent from the
    initialiser list, so its value is whatever default initialisation of
    [GeometryID] leaves there: the argument [g].  [annotation_data(-1)]
    converts -1 to [std::uint32_t]; [flags] is default-constructed. *)
Definition NodeBasedEdge_default (g : GeometryID) : NodeBasedEdge :=
  mkNodeBasedEdge SPECIAL_NODEID SPECIAL_NODEID 0 0 g (to_uint32 (-1))
                  NodeBasedEdgeClassification_default.

(** [NodeBasedEdge::operator<]. *)
Definition NodeBasedEdge_lt (self other : NodeBasedEdge) : bool :=
  if source self =? source other then
    if target self =? target other then
      if weight self =? weight other then
        forward (flags self) && backward (flags self)
        && (negb (forward (flags other)) || negb (backward (flags other)))
      else weight self <? weight other
    else target self <? target other
  else source self <? source other.

(** ** OSM-tagged edge record *)

(** [struct NodeBasedEdgeWithOSM : NodeBasedEdge]: the base sub-object
    followed by the two members the derived struct adds. *)
Record NodeBasedEdgeWithOSM : Type := mkNodeBasedEdgeWithOSM {
  base : NodeBasedEdge;
  osm_source_id : OSMNodeID;
  osm_target_id : OSMNodeID
}.

(** The seven-argument constructor: the base is built with both node
    identifiers set to [SPECIAL_NODEID]. *)
Definition NodeBasedEdgeWithOSM_new (osm_source osm_target : OSMNodeID)
    (w : EdgeWeight) (d : EdgeDuration) (g : GeometryID) (a : AnnotationID)
    (f : NodeBasedEdgeClassification) : NodeBasedEdgeWithOSM :=
  mkNodeBasedEdgeWithOSM
    (mkNodeBasedEdge SPECIAL_NODEID SPECIAL_NODEID w d g a f)
    osm_source osm_target.

(** [NodeBasedEdgeWithOSM::NodeBasedEdgeWithOSM()]. *)
Definition NodeBasedEdgeWithOSM_default (g : GeometryID) : NodeBasedEdgeWithOSM :=
  mkNodeBasedEdgeWithOSM (NodeBasedEdge_default g) MIN_OSM_NODEID MIN_OSM_NODEID.

(** [operator<] as the derived struct inherits it: it is the base's
    comparator applied to the base sub-objects. *)
Definition NodeBasedEdgeWithOSM_lt (self other : NodeBasedEdgeWithOSM) : bool :=
  NodeBasedEdge_lt (base self) (base other).

(** ** What the comparator observes *)

(** A record is fully bidirectional when both direction bits are set. *)
Definition bidirectional (e : NodeBasedEdge) : bool :=
  forward (flags e) && backward (flags e).

(** Two records the comparator cannot tell apart: equal source, target and
    weight, and the same answer to the directionality tie-break. *)
Definition tied (a b : NodeBasedEdge) : Prop :=
  source a = source b /\ target a = target b /\ weight a = weight b /\
  bidirectional a = bidirectional b.

(** Agreement on the five fields the comparator reads. *)
Definition same_compared_fields (a b : NodeBasedEdge) : Prop :=
  source a = source b /\ target a = target b /\ weight a = weight b /\
  forward (flags a) = forward (flags b) /\
  backward (flags a) = backward (flags b).

(** Agreement of two flag values on everything but [is_split]. *)
Definition same_but_is_split (a b : NodeBasedEdgeClassification) : Prop :=
  RoadClassification_eqb (road_classification a) (road_classification b) = true /\
  forward a = forward b /\ backward a = backward b /\
  roundabout a = roundabout b /\ circular a = circular b /\
  startpoint a = startpoint b /\ restricted a = restricted b.

(** The key a record is sorted by, and the order of keys: bidirectional
    ([true]) comes before one-directional ([false]) at equal numbers. *)
Definition sort_key (e : NodeBasedEdge) : Z * Z * Z * bool :=
  (source e, target e, weight e, bidirectional e).

Definition key_lt (k1 k2 : Z * Z * Z * bool) : bool :=
  let '(s1, t1, w1, b1) := k1 in
  let '(s2, t2, w2, b2) := k2 in
  if s1 =? s2 then
    if t1 =? t2 then
      if w1 =? w2 then b1 && negb b2 else w1 <? w2
    else t1 <? t2
  else s1 <? s2.

(** A sequence is in sorted order for a comparator when no element is
    greater than its successor (what [std::is_sorted] checks). *)
Definition sorted_by_lt (l : list NodeBasedEdge) : Prop :=
  Sorted (fun x y => NodeBasedEdge_lt y x = false) l.

(** The fields of an OSM-tagged record other than the inherited node
    identifiers: the record as it would be if the OSM identifiers took the
    place of [source] and [target]. *)
Definition osm_tagged_fields (e : NodeBasedEdgeWithOSM)
  : OSMNodeID * OSMNodeID * EdgeWeight * EdgeDuration * GeometryID
    * AnnotationID * NodeBasedEdgeClassification :=
  (osm_source_id e, osm_target_id e, weight (base e), duration (base e),
   geometry_id (base e), annotation_data (base e), flags (base e)).

End NodeBasedEdges.

Arguments NodeBasedEdgeClassification : clear implicits.
Arguments NodeBasedEdge : clear implicits.
Arguments NodeBasedEdgeWithOSM : clear implicits.

(** ** Sample values

    An instance of the parameters on which the definitions evaluate: road
    classifications and geometry references are integers compared by value,
    0 is the default road classification and the special node identifier is
    the largest 32-bit value. *)
Module Sample.

Definition flags_of (fwd bwd split : bool) : NodeBasedEdgeClassification Z :=
  mkClassification fwd bwd split false false true false 0.

Definition edge (s t w d : Z) (fwd bwd : bool) : NodeBasedEdge Z Z :=
  mkNodeBasedEdge s t w d 0 0 (flags_of fwd bwd false).

Definition forward_only_5 : NodeBasedEdge Z Z := edge 1 2 10 5 true false.
Definition forward_only_7 : NodeBasedEdge Z Z := edge 1 2 10 7 true false.
Definition both_ways : NodeBasedEdge Z Z := edge 1 2 10 5 true true.

Definition osm_edge : NodeBasedEdgeWithOSM Z Z :=
  NodeBasedEdgeWithOSM_new uint32_max 100 200 10 5 0 0 (flags_of true false false).

(** [osm_edge] after the assignment [e.source = 7] to its inherited field. *)
Definition osm_edge_resolved : NodeBasedEdgeWithOSM Z Z :=
  mkNodeBasedEdgeWithOSM
    (mkNodeBasedEdge 7 uint32_max 10 5 0 0 (flags_of true false false))
    100 200.

End Sample.

(** * Properties *)

(** Case analysis on every integer comparison in sight. *)
Ltac split_comparisons :=
  repeat match goal with
         | H : context [?x =? ?y] |- _ => destruct (Z.eqb_spec x y)
         | |- context [?x =? ?y] => destruct (Z.eqb_spec x y)
         | H : context [?x <? ?y] |- _ => destruct (Z.ltb_spec x y)
         | |- context [?x <? ?y] => destruct (Z.ltb_spec x y)
         end.

(** Turns the boolean comparisons of the goal into the propositions they decide. *)
Ltac reflect_bools :=
  repeat rewrite ?andb_true_iff, ?orb_true_iff, ?negb_true_iff,
                 ?eqb_true_iff, ?Z.eqb_eq, ?Z.ltb_lt.

(** ** Annotation record *)

(** C4: [a.CanCombineWith(b)] on annotation records is true exactly when
    [name_id], [classes] and [travel_mode] are equal; records that agree on
    these three and differ in [lane_description_id] are combinable. *)
Theorem Annotation_CanCombineWith_spec (a b : NodeBasedEdgeAnnotation) :
  (Annotation_CanCombineWith a b = true <->
   name_id a = name_id b /\ classes a = classes b /\ travel_mode a = travel_mode b)
  /\ (name_id a = name_id b -> classes a = classes b ->
      travel_mode a = travel_mode b ->
      lane_description_id a <> lane_description_id b ->
      Annotation_CanCombineWith a b = true).
Proof.
  assert (E : Annotation_CanCombineWith a b = true <->
              name_id a = name_id b /\ classes a = classes b /\
              travel_mode a = travel_mode b).
  { unfold Annotation_CanCombineWith. reflect_bools. tauto. }
  split; [exact E |].
  intros; apply E; auto.
Qed.

Section ComparatorFacts.

Context {RoadClassification GeometryID : Type}.

Local Abbreviation Edge := (NodeBasedEdge RoadClassification GeometryID).

(** ** The comparator as an order of keys *)

Lemma NodeBasedEdge_lt_key (a b : Edge) :
  NodeBasedEdge_lt a b = key_lt (sort_key a) (sort_key b).
Proof.
  unfold NodeBasedEdge_lt, key_lt, sort_key, bidirectional.
  now rewrite negb_andb.
Qed.

Lemma key_lt_irrefl k : key_lt k k = false.
Proof.
  destruct k as [[[s t] w] b]; unfold key_lt.
  rewrite !Z.eqb_refl. now destruct b.
Qed.

Lemma key_lt_asym k1 k2 : key_lt k1 k2 = true -> key_lt k2 k1 = false.
Proof.
  destruct k1 as [[[s1 t1] w1] b1], k2 as [[[s2 t2] w2] b2]; unfold key_lt.
  split_comparisons; try lia; try discriminate; try reflexivity.
  now destruct b1, b2.
Qed.

Lemma key_lt_trans k1 k2 k3 :
  key_lt k1 k2 = true -> key_lt k2 k3 = true -> key_lt k1 k3 = true.
Proof.
  destruct k1 as [[[s1 t1] w1] b1], k2 as [[[s2 t2] w2] b2],
           k3 as [[[s3 t3] w3] b3]; unfold key_lt.
  split_comparisons; try lia; try discriminate; try reflexivity.
  now destruct b1, b2, b3.
Qed.

(** Two keys neither of which is below the other are the same key. *)
Lemma key_lt_connected k1 k2 :
  key_lt k1 k2 = false -> key_lt k2 k1 = false -> k1 = k2.
Proof.
  destruct k1 as [[[s1 t1] w1] b1], k2 as [[[s2 t2] w2] b2]; unfold key_lt.
  split_comparisons; try lia; try discriminate.
  subst. now destruct b1, b2.
Qed.

(** "Not above" is transitive. *)
Lemma key_not_above_trans k1 k2 k3 :
  key_lt k2 k1 = false -> key_lt k3 k2 = false -> key_lt k3 k1 = false.
Proof.
  destruct k1 as [[[s1 t1] w1] b1], k2 as [[[s2 t2] w2] b2],
           k3 as [[[s3 t3] w3] b3]; unfold key_lt.
  split_comparisons; try lia; try discriminate; try reflexivity.
  now destruct b1, b2, b3.
Qed.

Lemma tied_iff_key (a b : Edge) : tied a b <-> sort_key a = sort_key b.
Proof.
  unfold tied, sort_key; split.
  - intros (-> & -> & -> & ->); reflexivity.
  - intros H; injection H; auto.
Qed.

(** ** Sorted sequences of keys *)

Lemma StronglySorted_map {A B} (f : A -> B) (R : B -> B -> Prop) (l : list A) :
  StronglySorted (fun x y => R (f x) (f y)) l -> StronglySorted R (map f l).
Proof.
  induction 1 as [|x xs _ IH Hall]; simpl; constructor; auto.
  apply Forall_map; exact Hall.
Qed.

(** A rearrangement of a sorted key sequence that is sorted too is the
    same sequence. *)
Lemma sorted_keys_unique (l1 : list (Z * Z * Z * bool)) :
  forall l2,
    StronglySorted (fun x y => key_lt y x = false) l1 ->
    StronglySorted (fun x y => key_lt y x = false) l2 ->
    Permutation l1 l2 -> l1 = l2.
Proof.
  induction l1 as [|x xs IH]; intros l2 S1 S2 P.
  - apply Permutation_nil in P; now subst.
  - destruct l2 as [|y ys].
    + apply Permutation_sym, Permutation_nil in P; discriminate.
    + apply StronglySorted_inv in S1; destruct S1 as [S1 F1].
      apply StronglySorted_inv in S2; destruct S2 as [S2 F2].
      assert (E : x = y).
      { assert (Hx : In x (y :: ys))
          by (eapply Permutation_in; [exact P | now left]).
        assert (Hy : In y (x :: xs))
          by (eapply Permutation_in; [apply Permutation_sym; exact P | now left]).
        destruct Hx as [Hx | Hx]; [now symmetry |].
        destruct Hy as [Hy | Hy]; [assumption |].
        rewrite Forall_forall in F1, F2.
        apply key_lt_connected; [apply F2 | apply F1]; assumption. }
      subst y. f_equal. apply IH; auto.
      eapply Permutation_cons_inv; exact P.
Qed.

Lemma sorted_by_lt_keys (l : list Edge) :
  sorted_by_lt l ->
  StronglySorted (fun x y => key_lt y x = false) (map sort_key l).
Proof.
  intros S. apply StronglySorted_map.
  apply Sorted_StronglySorted.
  - intros a b c Hab Hbc. eapply key_not_above_trans; eassumption.
  - unfold sorted_by_lt in S.
    induction S as [|x xs _ IH Hd]; constructor; auto.
    destruct Hd as [|y ys Hxy]; constructor.
    now rewrite <- NodeBasedEdge_lt_key.
Qed.

(** C1: [a < b] holds exactly when [a.source < b.source], or the sources are
    equal and [a.target < b.target], or sources and targets are equal and
    [a.weight < b.weight], or all three are equal, [a] has both [forward] and
    [backward] set and [b] has at least one of them unset.  So at identical
    source, target and weight a fully bidirectional record sorts strictly
    before a record that is not. *)
Theorem NodeBasedEdge_lt_spec (a b : Edge) :
  (NodeBasedEdge_lt a b = true <->
   source a < source b
   \/ (source a = source b /\ target a < target b)
   \/ (source a = source b /\ target a = target b /\ weight a < weight b)
   \/ (source a = source b /\ target a = target b /\ weight a = weight b /\
       (forward (flags a) = true /\ backward (flags a) = true) /\
       (forward (flags b) = false \/ backward (flags b) = false)))
  /\ (source a = source b -> target a = target b -> weight a = weight b ->
      forward (flags a) = true -> backward (flags a) = true ->
      forward (flags b) = false \/ backward (flags b) = false ->
      NodeBasedEdge_lt a b = true /\ NodeBasedEdge_lt b a = false).
Proof.
  split.
  - unfold NodeBasedEdge_lt.
    split_comparisons; reflect_bools; try (intuition (congruence || lia)).
  - intros Hs Ht Hw Hf Hb Ho. unfold NodeBasedEdge_lt.
    rewrite Hs, Ht, Hw, !Z.eqb_refl, Hf, Hb.
    destruct Ho as [-> | ->]; simpl; rewrite ?andb_false_r, ?orb_true_r; auto.
Qed.

(** C10: the comparator reads only source, target, weight and the forward
    and backward bits.  Two pairs of records that agree pairwise on these five
    fields compare alike, whatever their durations, geometry and annotation
    references and other flags; hence two records that agree on the five
    fields are unordered either way. *)
Theorem NodeBasedEdge_lt_compared_fields :
  (forall a a' b b' : Edge,
      same_compared_fields a a' -> same_compared_fields b b' ->
      NodeBasedEdge_lt a b = NodeBasedEdge_lt a' b')
  /\ (forall a b : Edge,
        same_compared_fields a b ->
        NodeBasedEdge_lt a b = false /\ NodeBasedEdge_lt b a = false).
Proof.
  split.
  - intros a a' b b' (Hs & Ht & Hw & Hf & Hb) (Hs' & Ht' & Hw' & Hf' & Hb').
    unfold NodeBasedEdge_lt. now rewrite Hs, Ht, Hw, Hf, Hb, Hs', Ht', Hw', Hf', Hb'.
  - intros a b (Hs & Ht & Hw & Hf & Hb).
    unfold NodeBasedEdge_lt. rewrite Hs, Ht, Hw, Hf, Hb, !Z.eqb_refl.
    now destruct (forward (flags b)), (backward (flags b)).
Qed.

(** C5 (amended): the comparator is a strict weak order.  It is irreflexive,
    asymmetric and transitive; of two records that differ in source, target,
    weight or in being fully bidirectional exactly one is below the other;
    two records that agree on these are unordered either way, even when their
    other fields differ.  Hence two sorted arrangements of one multiset of
    records carry the same (source, target, weight, bidirectional) at every
    position; the order among tied records is not fixed by the comparator. *)
Theorem NodeBasedEdge_lt_strict_weak_order :
  (forall a : Edge, NodeBasedEdge_lt a a = false) /\
  (forall a b : Edge, NodeBasedEdge_lt a b = true -> NodeBasedEdge_lt b a = false) /\
  (forall a b c : Edge,
      NodeBasedEdge_lt a b = true -> NodeBasedEdge_lt b c = true ->
      NodeBasedEdge_lt a c = true) /\
  (forall a b : Edge,
      ~ tied a b ->
      (NodeBasedEdge_lt a b = true /\ NodeBasedEdge_lt b a = false) \/
      (NodeBasedEdge_lt a b = false /\ NodeBasedEdge_lt b a = true)) /\
  (forall a b : Edge,
      tied a b -> NodeBasedEdge_lt a b = false /\ NodeBasedEdge_lt b a = false) /\
  (forall l1 l2 : list Edge,
      Permutation l1 l2 -> sorted_by_lt l1 -> sorted_by_lt l2 ->
      map sort_key l1 = map sort_key l2).
Proof.
  repeat apply conj.
  - intros a. rewrite NodeBasedEdge_lt_key. apply key_lt_irrefl.
  - intros a b. rewrite !NodeBasedEdge_lt_key. apply key_lt_asym.
  - intros a b c. rewrite !NodeBasedEdge_lt_key. apply key_lt_trans.
  - intros a b Hn. rewrite !NodeBasedEdge_lt_key.
    destruct (key_lt (sort_key a) (sort_key b)) eqn:Eab.
    + left. split; [reflexivity | now apply key_lt_asym].
    + right. split; [reflexivity |].
      destruct (key_lt (sort_key b) (sort_key a)) eqn:Eba; [reflexivity |].
      exfalso. apply Hn, tied_iff_key. now apply key_lt_connected.
  - intros a b Ht. apply tied_iff_key in Ht.
    rewrite !NodeBasedEdge_lt_key, Ht. split; apply key_lt_irrefl.
  - intros l1 l2 P S1 S2.
    apply sorted_keys_unique.
    + now apply sorted_by_lt_keys.
    + now apply sorted_by_lt_keys.
    + now apply Permutation_map.
Qed.

End ComparatorFacts.

(** ** Combinability of classification flags *)

Section ClassificationFacts.

Context {RoadClassification : Type}.
Variable RoadClassification_eqb : RoadClassification -> RoadClassification -> bool.

Local Abbreviation Flags := (NodeBasedEdgeClassification RoadClassification).

(** C2: [a.CanCombineWith(b)] is true exactly when the road classifications
    compare equal and [forward], [backward], [roundabout], [circular],
    [startpoint], [restricted] and [is_split] are pairwise equal.  The
    predicate is a function of the two values alone. *)
Theorem CanCombineWith_spec (a b : Flags) :
  CanCombineWith RoadClassification_eqb a b = true <->
  RoadClassification_eqb (road_classification a) (road_classification b) = true /\
  forward a = forward b /\
  backward a = backward b /\
  roundabout a = roundabout b /\
  circular a = circular b /\
  startpoint a = startpoint b /\
  restricted a = restricted b /\
  is_split a = is_split b.
Proof.
  unfold CanCombineWith. reflect_bools. tauto.
Qed.

(** C3 (amended): the split-edge conjunct of the combinability check compares
    the two [is_split] bits.  For flag values that agree on road
    classification, [forward], [backward], [roundabout], [circular],
    [startpoint] and [restricted], the check returns true exactly when the
    [is_split] bits are equal; when they differ it returns false. *)
Theorem CanCombineWith_is_split (a b : Flags) :
  same_but_is_split RoadClassification_eqb a b ->
  CanCombineWith RoadClassification_eqb a b = Bool.eqb (is_split a) (is_split b)
  /\ (is_split a <> is_split b -> CanCombineWith RoadClassification_eqb a b = false).
Proof.
  intros (Hrc & Hf & Hb & Hr & Hc & Hs & Hx).
  assert (E : CanCombineWith RoadClassification_eqb a b
              = Bool.eqb (is_split a) (is_split b)).
  { unfold CanCombineWith.
    rewrite Hrc, Hf, Hb, Hr, Hc, Hs, Hx, !eqb_reflx.
    now rewrite !andb_true_r. }
  split; [exact E |].
  intros Hd. rewrite E. now apply eqb_false_iff.
Qed.

End ClassificationFacts.

(** ** Constructors *)

Section ConstructorFacts.

Context {RoadClassification GeometryID : Type}.
Variable RoadClassification_default : RoadClassification.
Variable SPECIAL_NODEID : NodeID.

Local Abbreviation Flags := (NodeBasedEdgeClassification RoadClassification).

(** C9: a default-constructed classification has its seven boolean
    attributes [forward], [backward], [is_split], [roundabout], [circular],
    [startpoint] and [restricted] cleared, and the road classification its
    own default constructor yields (the unclassified one). *)
Theorem NodeBasedEdgeClassification_default_fields :
  forward (NodeBasedEdgeClassification_default RoadClassification_default) = false /\
  backward (NodeBasedEdgeClassification_default RoadClassification_default) = false /\
  is_split (NodeBasedEdgeClassification_default RoadClassification_default) = false /\
  roundabout (NodeBasedEdgeClassification_default RoadClassification_default) = false /\
  circular (NodeBasedEdgeClassification_default RoadClassification_default) = false /\
  startpoint (NodeBasedEdgeClassification_default RoadClassification_default) = false /\
  restricted (NodeBasedEdgeClassification_default RoadClassification_default) = false /\
  road_classification (NodeBasedEdgeClassification_default RoadClassification_default)
  = RoadClassification_default.
Proof. repeat split. Qed.

(** C7: the annotation reference of a default-constructed edge record is the
    unassigned sentinel, the largest value of the 32-bit [AnnotationID],
    2^32 - 1; its source and target are [SPECIAL_NODEID], its weight and its
    duration are zero. *)
Theorem NodeBasedEdge_default_fields (g : GeometryID) :
  annotation_data (NodeBasedEdge_default RoadClassification_default SPECIAL_NODEID g)
  = uint32_max /\
  uint32_max = 2 ^ 32 - 1 /\
  (forall z : Z,
      0 <= to_uint32 z
      <= annotation_data (NodeBasedEdge_default RoadClassification_default SPECIAL_NODEID g)) /\
  source (NodeBasedEdge_default RoadClassification_default SPECIAL_NODEID g)
  = SPECIAL_NODEID /\
  target (NodeBasedEdge_default RoadClassification_default SPECIAL_NODEID g)
  = SPECIAL_NODEID /\
  weight (NodeBasedEdge_default RoadClassification_default SPECIAL_NODEID g) = 0 /\
  duration (NodeBasedEdge_default RoadClassification_default SPECIAL_NODEID g) = 0.
Proof.
  repeat split.
  - apply Z.mod_pos_bound; reflexivity.
  - simpl annotation_data. unfold to_uint32.
    pose proof (Z.mod_pos_bound z (2 ^ 32) eq_refl) as B.
    change ((-1) mod 2 ^ 32) with (2 ^ 32 - 1). lia.
Qed.

(** C8 (amended): the OSM-tagged record derives from the edge record and adds
    two OSM identifiers to it.  Constructing it from OSM source and target
    identifiers stores them in [osm_source_id] and [osm_target_id]; the
    inherited [source] and [target] are still there and are set to
    [SPECIAL_NODEID]; weight, duration, geometry reference, annotation
    reference and flags are the inherited fields, holding the arguments. *)
Theorem NodeBasedEdgeWithOSM_new_fields
    (s t : OSMNodeID) (w : EdgeWeight) (d : EdgeDuration) (g : GeometryID)
    (a : AnnotationID) (f : Flags) :
  osm_source_id (NodeBasedEdgeWithOSM_new SPECIAL_NODEID s t w d g a f) = s /\
  osm_target_id (NodeBasedEdgeWithOSM_new SPECIAL_NODEID s t w d g a f) = t /\
  base (NodeBasedEdgeWithOSM_new SPECIAL_NODEID s t w d g a f)
  = mkNodeBasedEdge SPECIAL_NODEID SPECIAL_NODEID w d g a f /\
  osm_tagged_fields (NodeBasedEdgeWithOSM_new SPECIAL_NODEID s t w d g a f)
  = (s, t, w, d, g, a, f).
Proof. repeat split. Qed.

End ConstructorFacts.

(** * The properties on sample values *)

(** Flag values equal but for [is_split] are not combinable. *)
Lemma CanCombineWith_is_split_witness :
  CanCombineWith Z.eqb (Sample.flags_of true false false)
                       (Sample.flags_of true false true) = false.
Proof.
  apply (CanCombineWith_is_split Z.eqb).
  - repeat split.
  - simpl; discriminate.
Defined.

(** C3 as stated fails: the two values agree on everything but [is_split],
    and are not combinable. *)
Lemma CanCombineWith_is_split_counterexample :
  same_but_is_split Z.eqb (Sample.flags_of true false false)
                          (Sample.flags_of true false true) /\
  is_split (Sample.flags_of true false false)
  <> is_split (Sample.flags_of true false true) /\
  CanCombineWith Z.eqb (Sample.flags_of true false false)
                       (Sample.flags_of true false true) <> true.
Proof.
  split; [repeat split | split; simpl; discriminate].
Qed.

(** Annotations that differ in the lane description alone are combinable. *)
Lemma Annotation_CanCombineWith_witness :
  Annotation_CanCombineWith (mkAnnotation 12 1 3 40) (mkAnnotation 12 1 3 41) = true.
Proof.
  apply (Annotation_CanCombineWith_spec (mkAnnotation 12 1 3 40) (mkAnnotation 12 1 3 41));
    simpl; [reflexivity | reflexivity | reflexivity | lia].
Defined.

(** At equal source, target and weight the bidirectional record comes first. *)
Lemma NodeBasedEdge_lt_spec_witness :
  NodeBasedEdge_lt Sample.both_ways Sample.forward_only_5 = true /\
  NodeBasedEdge_lt Sample.forward_only_5 Sample.both_ways = false.
Proof.
  apply (NodeBasedEdge_lt_spec Sample.both_ways Sample.forward_only_5);
    simpl; auto.
Defined.

(** Durations play no part in the comparison. *)
Lemma NodeBasedEdge_lt_compared_fields_witness :
  NodeBasedEdge_lt Sample.both_ways Sample.forward_only_5
  = NodeBasedEdge_lt (Sample.edge 1 2 10 99 true true) Sample.forward_only_7
  /\ NodeBasedEdge_lt Sample.forward_only_5 Sample.forward_only_7 = false
  /\ NodeBasedEdge_lt Sample.forward_only_7 Sample.forward_only_5 = false.
Proof.
  destruct (@NodeBasedEdge_lt_compared_fields Z Z) as [H1 H2].
  split.
  - apply H1; repeat split.
  - apply H2; repeat split.
Defined.

(** Two sorted arrangements of three records, alike in their keys. *)
Lemma NodeBasedEdge_lt_strict_weak_order_witness :
  NodeBasedEdge_lt Sample.forward_only_5 Sample.both_ways = false /\
  map sort_key [Sample.both_ways; Sample.forward_only_5; Sample.forward_only_7]
  = map sort_key [Sample.both_ways; Sample.forward_only_7; Sample.forward_only_5].
Proof.
  destruct (@NodeBasedEdge_lt_strict_weak_order Z Z) as (_ & Hasym & _ & _ & _ & Huniq).
  split.
  - apply Hasym; reflexivity.
  - apply Huniq.
    + apply perm_skip, perm_swap.
    + repeat constructor.
    + repeat constructor.
Defined.

(** C5 as stated fails: two different records tie, so both arrangements of
    the pair are sorted. *)
Lemma NodeBasedEdge_lt_ties_counterexample :
  Sample.forward_only_5 <> Sample.forward_only_7 /\
  duration Sample.forward_only_5 <> duration Sample.forward_only_7 /\
  NodeBasedEdge_lt Sample.forward_only_5 Sample.forward_only_7 = false /\
  NodeBasedEdge_lt Sample.forward_only_7 Sample.forward_only_5 = false /\
  Permutation [Sample.forward_only_5; Sample.forward_only_7]
              [Sample.forward_only_7; Sample.forward_only_5] /\
  sorted_by_lt [Sample.forward_only_5; Sample.forward_only_7] /\
  sorted_by_lt [Sample.forward_only_7; Sample.forward_only_5] /\
  [Sample.forward_only_5; Sample.forward_only_7]
  <> [Sample.forward_only_7; Sample.forward_only_5].
Proof.
  repeat apply conj; try reflexivity.
  - discriminate.
  - discriminate.
  - apply perm_swap.
  - repeat constructor.
  - repeat constructor.
  - discriminate.
Qed.

(** C8 as stated fails: the node identifiers are not replaced.  The record
    the constructor builds keeps [source] and [target] next to the OSM
    identifiers, and a record that differs from it in [source] alone has the
    same OSM identifiers, weight, duration, references and flags. *)
Lemma NodeBasedEdgeWithOSM_keeps_node_ids :
  source (base Sample.osm_edge) = uint32_max /\
  target (base Sample.osm_edge) = uint32_max /\
  osm_source_id Sample.osm_edge = 100 /\
  osm_tagged_fields Sample.osm_edge = osm_tagged_fields Sample.osm_edge_resolved /\
  Sample.osm_edge <> Sample.osm_edge_resolved.
Proof.
  repeat apply conj; try reflexivity.
  discriminate.
Qed.

(** * Further properties of the comparator and of combinability *)

(** X1: combinability of annotation records is an equivalence relation: every
    record is combinable with itself, the check gives the same answer with
    its arguments exchanged, and it is transitive. *)
Theorem Annotation_CanCombineWith_equivalence :
  (forall a : NodeBasedEdgeAnnotation, Annotation_CanCombineWith a a = true) /\
  (forall a b : NodeBasedEdgeAnnotation,
      Annotation_CanCombineWith a b = Annotation_CanCombineWith b a) /\
  (forall a b c : NodeBasedEdgeAnnotation,
      Annotation_CanCombineWith a b = true ->
      Annotation_CanCombineWith b c = true ->
      Annotation_CanCombineWith a c = true).
Proof.
  unfold Annotation_CanCombineWith. repeat apply conj.
  - intros a. now rewrite !Z.eqb_refl.
  - intros a b.
    now rewrite (Z.eqb_sym (name_id a)), (Z.eqb_sym (classes a)),
                (Z.eqb_sym (travel_mode a)).
  - intros a b c. reflect_bools.
    intros [[-> ->] ->] [[-> ->] ->]. auto.
Qed.

Lemma bool_eqb_comm (x y : bool) : Bool.eqb x y = Bool.eqb y x.
Proof. now destruct x, y. Qed.

Section ClassificationEquivalence.

Context {RoadClassification : Type}.
Variable RoadClassification_eqb : RoadClassification -> RoadClassification -> bool.

(** X2: when [operator==] of the road classification is an equivalence,
    combinability of classification flags is one too: reflexive, symmetric
    and transitive. *)
Theorem CanCombineWith_equivalence :
  (forall x, RoadClassification_eqb x x = true) ->
  (forall x y, RoadClassification_eqb x y = RoadClassification_eqb y x) ->
  (forall x y z, RoadClassification_eqb x y = true ->
                 RoadClassification_eqb y z = true ->
                 RoadClassification_eqb x z = true) ->
  (forall a : NodeBasedEdgeClassification RoadClassification,
      CanCombineWith RoadClassification_eqb a a = true) /\
  (forall a b : NodeBasedEdgeClassification RoadClassification,
      CanCombineWith RoadClassification_eqb a b
      = CanCombineWith RoadClassification_eqb b a) /\
  (forall a b c : NodeBasedEdgeClassification RoadClassification,
      CanCombineWith RoadClassification_eqb a b = true ->
      CanCombineWith RoadClassification_eqb b c = true ->
      CanCombineWith RoadClassification_eqb a c = true).
Proof.
  intros Hrefl Hsym Htrans. unfold CanCombineWith. repeat apply conj.
  - intros a. now rewrite Hrefl, !eqb_reflx.
  - intros a b.
    rewrite (Hsym (road_classification a)).
    now rewrite (bool_eqb_comm (forward a)), (bool_eqb_comm (backward a)),
                (bool_eqb_comm (is_split a)), (bool_eqb_comm (roundabout a)),
                (bool_eqb_comm (circular a)), (bool_eqb_comm (startpoint a)),
                (bool_eqb_comm (restricted a)).
  - intros a b c. reflect_bools.
    intros [[[[[[[Hab -> ] -> ] -> ] -> ] -> ] -> ] -> ].
    intros [[[[[[[Hbc -> ] -> ] -> ] -> ] -> ] -> ] -> ].
    repeat split; try reflexivity.
    eapply Htrans; eassumption.
Qed.

End ClassificationEquivalence.

Section SortingFacts.

Context {RoadClassification GeometryID : Type}.

Local Abbreviation Edge := (NodeBasedEdge RoadClassification GeometryID).

(** Two records are unordered either way exactly when they are tied. *)
Lemma unordered_iff_tied (a b : Edge) :
  NodeBasedEdge_lt a b = false /\ NodeBasedEdge_lt b a = false <-> tied a b.
Proof.
  rewrite !NodeBasedEdge_lt_key, tied_iff_key. split.
  - intros [H1 H2]. now apply key_lt_connected.
  - intros ->. split; apply key_lt_irrefl.
Qed.

(** In a sorted sequence no record is above a record that comes later. *)
Lemma sorted_by_lt_strongly (l : list Edge) :
  sorted_by_lt l -> StronglySorted (fun x y => NodeBasedEdge_lt y x = false) l.
Proof.
  intros S. apply Sorted_StronglySorted; [| exact S].
  intros a b c Hab Hbc. rewrite NodeBasedEdge_lt_key in *.
  eapply key_not_above_trans; eassumption.
Qed.

Lemma sorted_by_lt_earlier (l1 l2 l3 : list Edge) (a b : Edge) :
  sorted_by_lt (l1 ++ a :: l2 ++ b :: l3) -> NodeBasedEdge_lt b a = false.
Proof.
  intros S. apply sorted_by_lt_strongly in S.
  induction l1 as [|x xs IH]; simpl in S; apply StronglySorted_inv in S.
  - destruct S as [_ F]. rewrite Forall_forall in F.
    apply F, in_or_app. right; now left.
  - apply IH, S.
Qed.

(** X3: the comparator meets what [std::sort] asks of it beyond being a
    strict order: being unordered either way is transitive, so the records
    fall into classes of mutually unordered records; two records are
    unordered exactly when they agree on source, target, weight and on being
    fully bidirectional. *)
Theorem NodeBasedEdge_lt_incomparable_transitive (a b c : Edge) :
  (NodeBasedEdge_lt a b = false /\ NodeBasedEdge_lt b a = false <-> tied a b) /\
  (NodeBasedEdge_lt a b = false -> NodeBasedEdge_lt b a = false ->
   NodeBasedEdge_lt b c = false -> NodeBasedEdge_lt c b = false ->
   NodeBasedEdge_lt a c = false /\ NodeBasedEdge_lt c a = false).
Proof.
  split; [apply unordered_iff_tied |].
  intros Hab Hba Hbc Hcb.
  assert (Tab : tied a b) by (apply unordered_iff_tied; auto).
  assert (Tbc : tied b c) by (apply unordered_iff_tied; auto).
  apply unordered_iff_tied.
  apply tied_iff_key. apply tied_iff_key in Tab, Tbc. congruence.
Qed.

(** X4: in a sorted sequence, a record [a] that comes before a record [b] has
    a source no larger than that of [b]; at equal sources a target no larger;
    at equal sources and targets a weight no larger; and at equal source,
    target and weight, if [b] is fully bidirectional then so is [a]: the
    bidirectional records of a group come first. *)
Theorem sorted_by_lt_layout (l1 l2 l3 : list Edge) (a b : Edge) :
  sorted_by_lt (l1 ++ a :: l2 ++ b :: l3) ->
  source a <= source b /\
  (source a = source b -> target a <= target b) /\
  (source a = source b -> target a = target b -> weight a <= weight b) /\
  (source a = source b -> target a = target b -> weight a = weight b ->
   bidirectional b = true -> bidirectional a = true).
Proof.
  intros S. apply sorted_by_lt_earlier in S.
  rewrite NodeBasedEdge_lt_key in S. unfold key_lt, sort_key in S.
  repeat apply conj.
  - split_comparisons; lia.
  - intros E. rewrite E, Z.eqb_refl in S. split_comparisons; lia.
  - intros E1 E2. rewrite E1, E2, !Z.eqb_refl in S. split_comparisons; lia.
  - intros E1 E2 E3 Hb. rewrite E1, E2, E3, !Z.eqb_refl, Hb in S.
    now destruct (bidirectional a).
Qed.

(** X5: in a sorted sequence the records of one node pair are contiguous:
    a record lying between two records with the same source and target has
    that source and target too; and a record lying between two tied records
    is tied with them. *)
Theorem sorted_by_lt_groups_contiguous (l1 l2 l3 l4 : list Edge) (a b c : Edge) :
  sorted_by_lt (l1 ++ a :: l2 ++ b :: l3 ++ c :: l4) ->
  (source a = source c -> target a = target c ->
   source b = source a /\ target b = target a) /\
  (tied a c -> tied a b).
Proof.
  intros S.
  assert (Hab : NodeBasedEdge_lt b a = false)
    by (apply (sorted_by_lt_earlier l1 l2 (l3 ++ c :: l4)); exact S).
  assert (Hbc : NodeBasedEdge_lt c b = false).
  { apply (sorted_by_lt_earlier (l1 ++ a :: l2) l3 l4).
    now rewrite <- app_assoc. }
  rewrite NodeBasedEdge_lt_key in Hab, Hbc.
  unfold key_lt, sort_key in Hab, Hbc.
  split.
  - intros Es Et. rewrite <- Es, <- Et in Hbc.
    split_comparisons; try lia; try discriminate.
  - intros (Es & Et & Ew & Eb). unfold tied.
    rewrite <- Es, <- Et, <- Ew, <- Eb in Hbc.
    split_comparisons; try lia; try discriminate.
    repeat split; try lia.
    now destruct (bidirectional a), (bidirectional b).
Qed.

(** X6: a multiset of records in which tied records are equal has one sorted
    arrangement only: two sorted sequences that are rearrangements of each
    other are then the same sequence. *)
Theorem sorted_by_lt_unique_without_ties (l1 l2 : list Edge) :
  (forall a b : Edge, In a l1 -> In b l1 -> tied a b -> a = b) ->
  Permutation l1 l2 -> sorted_by_lt l1 -> sorted_by_lt l2 -> l1 = l2.
Proof.
  intros Hinj P S1 S2.
  apply sorted_by_lt_strongly in S1, S2.
  revert l2 Hinj P S1 S2.
  induction l1 as [|x xs IH]; intros l2 Hinj P S1 S2.
  - apply Permutation_nil in P; now subst.
  - destruct l2 as [|y ys].
    + apply Permutation_sym, Permutation_nil in P; discriminate.
    + apply StronglySorted_inv in S1; destruct S1 as [S1 F1].
      apply StronglySorted_inv in S2; destruct S2 as [S2 F2].
      assert (Hy : In y (x :: xs))
        by (eapply Permutation_in; [apply Permutation_sym; exact P | now left]).
      assert (E : x = y).
      { assert (Hx : In x (y :: ys))
          by (eapply Permutation_in; [exact P | now left]).
        destruct Hx as [Hx | Hx]; [now symmetry |].
        destruct Hy as [Hy' | Hy']; [assumption |].
        rewrite Forall_forall in F1, F2.
        apply Hinj; [now left | now right |].
        apply unordered_iff_tied. split; [apply F2 | apply F1]; assumption. }
      subst y. f_equal. apply IH; auto.
      * intros a b Ha Hb. apply Hinj; now right.
      * eapply Permutation_cons_inv; exact P.
Qed.

End SortingFacts.

Section CombinableFacts.

Context {RoadClassification GeometryID : Type}.
Variable RoadClassification_eqb : RoadClassification -> RoadClassification -> bool.

(** X7: two records with equal source, target and weight whose flags are
    combinable are unordered either way; so when one of two such records is
    below the other, their flags are not combinable. *)
Theorem combinable_flags_unordered (a b : NodeBasedEdge RoadClassification GeometryID) :
  source a = source b -> target a = target b -> weight a = weight b ->
  (CanCombineWith RoadClassification_eqb (flags a) (flags b) = true ->
   NodeBasedEdge_lt a b = false /\ NodeBasedEdge_lt b a = false) /\
  (NodeBasedEdge_lt a b = true ->
   CanCombineWith RoadClassification_eqb (flags a) (flags b) = false).
Proof.
  intros Es Et Ew.
  assert (H : CanCombineWith RoadClassification_eqb (flags a) (flags b) = true ->
              NodeBasedEdge_lt a b = false /\ NodeBasedEdge_lt b a = false).
  { unfold CanCombineWith, NodeBasedEdge_lt. reflect_bools.
    intros [[[[[[[_ Hf] Hb] _] _] _] _] _].
    rewrite Es, Et, Ew, Hf, Hb, !Z.eqb_refl.
    now destruct (forward (flags b)), (backward (flags b)). }
  split; [exact H |].
  intros Hlt.
  destruct (CanCombineWith RoadClassification_eqb (flags a) (flags b));
    [| reflexivity].
  destruct (H eq_refl) as [Hab _]. rewrite Hab in Hlt. discriminate.
Qed.

End CombinableFacts.

Section OSMFacts.

Context {RoadClassification GeometryID : Type}.
Variable SPECIAL_NODEID : NodeID.

(** X8: the comparator an OSM-tagged record inherits does not look at the OSM
    identifiers.  Two records built by the seven-argument constructor are
    ordered by weight, then by the directionality tie-break, whatever their
    OSM identifiers are; with equal weights and equal flags they are
    unordered either way. *)
Theorem NodeBasedEdgeWithOSM_lt_new
    (s1 t1 s2 t2 : OSMNodeID) (w1 w2 : EdgeWeight) (d1 d2 : EdgeDuration)
    (g1 g2 : GeometryID) (a1 a2 : AnnotationID)
    (f1 f2 : NodeBasedEdgeClassification RoadClassification) :
  NodeBasedEdgeWithOSM_lt (NodeBasedEdgeWithOSM_new SPECIAL_NODEID s1 t1 w1 d1 g1 a1 f1)
                          (NodeBasedEdgeWithOSM_new SPECIAL_NODEID s2 t2 w2 d2 g2 a2 f2)
  = (if w1 =? w2
     then forward f1 && backward f1 && (negb (forward f2) || negb (backward f2))
     else w1 <? w2)
  /\ (w1 = w2 -> f1 = f2 ->
      NodeBasedEdgeWithOSM_lt (NodeBasedEdgeWithOSM_new SPECIAL_NODEID s1 t1 w1 d1 g1 a1 f1)
                              (NodeBasedEdgeWithOSM_new SPECIAL_NODEID s2 t2 w2 d2 g2 a2 f2)
      = false).
Proof.
  unfold NodeBasedEdgeWithOSM_lt, NodeBasedEdgeWithOSM_new, NodeBasedEdge_lt.
  simpl. rewrite !Z.eqb_refl. split; [reflexivity |].
  intros -> ->. rewrite Z.eqb_refl.
  now destruct (forward f2), (backward f2).
Qed.

End OSMFacts.

(** * The further properties on sample values *)

(** Three annotations that differ in the lane description alone. *)
Lemma Annotation_CanCombineWith_equivalence_witness :
  Annotation_CanCombineWith (mkAnnotation 12 1 3 40) (mkAnnotation 12 1 3 42) = true.
Proof.
  destruct Annotation_CanCombineWith_equivalence as (_ & _ & Htrans).
  apply (Htrans _ (mkAnnotation 12 1 3 41)); reflexivity.
Defined.

(** Integer road classifications compared by value. *)
Lemma CanCombineWith_equivalence_witness :
  CanCombineWith Z.eqb (Sample.flags_of true false true)
                       (Sample.flags_of true false true) = true /\
  CanCombineWith Z.eqb (Sample.flags_of true false true)
                       (Sample.flags_of false true true)
  = CanCombineWith Z.eqb (Sample.flags_of false true true)
                         (Sample.flags_of true false true).
Proof.
  destruct (CanCombineWith_equivalence Z.eqb) as (Hrefl & Hsym & _).
  - apply Z.eqb_refl.
  - apply Z.eqb_sym.
  - intros x y z Hxy Hyz. apply Z.eqb_eq in Hxy, Hyz. apply Z.eqb_eq. lia.
  - split; [apply Hrefl | apply Hsym].
Defined.

(** Three forward-only records of one segment with different durations. *)
Lemma NodeBasedEdge_lt_incomparable_transitive_witness :
  NodeBasedEdge_lt Sample.forward_only_5 (Sample.edge 1 2 10 9 true false) = false /\
  NodeBasedEdge_lt (Sample.edge 1 2 10 9 true false) Sample.forward_only_5 = false.
Proof.
  apply (NodeBasedEdge_lt_incomparable_transitive
           Sample.forward_only_5 Sample.forward_only_7
           (Sample.edge 1 2 10 9 true false)); reflexivity.
Defined.

(** A sorted sequence of four records over two node pairs. *)
Lemma sorted_by_lt_layout_witness :
  source Sample.both_ways <= source Sample.forward_only_7 /\
  (source Sample.both_ways = source Sample.forward_only_7 ->
   target Sample.both_ways <= target Sample.forward_only_7) /\
  (source Sample.both_ways = source Sample.forward_only_7 ->
   target Sample.both_ways = target Sample.forward_only_7 ->
   weight Sample.both_ways <= weight Sample.forward_only_7) /\
  (source Sample.both_ways = source Sample.forward_only_7 ->
   target Sample.both_ways = target Sample.forward_only_7 ->
   weight Sample.both_ways = weight Sample.forward_only_7 ->
   bidirectional Sample.forward_only_7 = true ->
   bidirectional Sample.both_ways = true).
Proof.
  apply (sorted_by_lt_layout [Sample.edge 1 2 8 3 true false]
                             [Sample.forward_only_5]
                             [Sample.edge 1 3 2 1 true true]).
  repeat constructor.
Defined.

Lemma sorted_by_lt_groups_contiguous_witness :
  (source Sample.both_ways = source (Sample.edge 1 2 12 4 true true) ->
   target Sample.both_ways = target (Sample.edge 1 2 12 4 true true) ->
   source Sample.forward_only_5 = source Sample.both_ways /\
   target Sample.forward_only_5 = target Sample.both_ways) /\
  (tied Sample.both_ways (Sample.edge 1 2 12 4 true true) ->
   tied Sample.both_ways Sample.forward_only_5).
Proof.
  apply (sorted_by_lt_groups_contiguous
           [Sample.edge 0 9 1 1 true false] [] [Sample.forward_only_7]
           [Sample.edge 1 3 2 1 true true]).
  repeat constructor.
Defined.

(** A bidirectional and a forward-only record: no two of them are tied. *)
Lemma sorted_by_lt_unique_without_ties_witness :
  [Sample.both_ways; Sample.forward_only_5]
  = [Sample.both_ways; Sample.forward_only_5].
Proof.
  apply sorted_by_lt_unique_without_ties.
  - intros a b [<- | [<- | []]] [<- | [<- | []]] (_ & _ & _ & Hb);
      try reflexivity; discriminate Hb.
  - apply Permutation_refl.
  - repeat constructor.
  - repeat constructor.
Defined.

(** Two records with the same flags and different durations. *)
Lemma combinable_flags_unordered_witness :
  NodeBasedEdge_lt Sample.forward_only_5 Sample.forward_only_7 = false /\
  NodeBasedEdge_lt Sample.forward_only_7 Sample.forward_only_5 = false.
Proof.
  apply (combinable_flags_unordered Z.eqb Sample.forward_only_5 Sample.forward_only_7);
    reflexivity.
Defined.

(** Two OSM-tagged records of different ways, with equal weight and flags. *)
Lemma NodeBasedEdgeWithOSM_lt_new_witness :
  NodeBasedEdgeWithOSM_lt
    (NodeBasedEdgeWithOSM_new uint32_max 100 200 10 5 0 0 (Sample.flags_of true true false))
    (NodeBasedEdgeWithOSM_new uint32_max 300 400 10 6 1 1 (Sample.flags_of true true false))
  = false.
Proof.
  apply (NodeBasedEdgeWithOSM_lt_new uint32_max 100 200 300 400 10 10 5 6 0 1 0 1
           (Sample.flags_of true true false) (Sample.flags_of true true false));
    reflexivity.
Defined.
